(** * Verification of the ember-best-practices document checkers

    Shallow embedding of [final_verify.py] (the structural census of
    [AGENTS.md]) and [verify_sections.py] (the catalog membership check).

    Model choices:
    - the document [content] is a [string] of ASCII characters, one character
      per Python code point; [\d] is an ASCII digit;
    - [print(x)] appends the line [x] to the standard output, which is a
      [list string]; the check mark characters are kept as their UTF-8 bytes;
    - [re.findall] over a pattern is a left-to-right scan that tries the
      pattern at each position, counts a match and resumes after its end, or
      advances by one character otherwise. *)

From Stdlib Require Import String Ascii List Bool Arith Lia.
Import ListNotations.
Open Scope string_scope.

(* ------------------------------------------------------------------ *)
(** ** Characters and strings *)

Definition nl : ascii := "010".

Definition is_digit (c : ascii) : bool :=
  Nat.leb 48 (nat_of_ascii c) && Nat.leb (nat_of_ascii c) 57.

(** Python's [str.isspace] restricted to ASCII. *)
Definition is_space (c : ascii) : bool :=
  let n := nat_of_ascii c in
  Nat.eqb n 32 || (Nat.leb 9 n && Nat.leb n 13)
  || (Nat.leb 28 n && Nat.leb n 31).

(** [x in s] for strings: literal substring containment. *)
Fixpoint contains (w s : string) : bool :=
  prefix w s || match s with
                | EmptyString => false
                | String _ r => contains w r
                end.

(** [s.count('\n')] *)
Fixpoint count_char (c : ascii) (s : string) : nat :=
  match s with
  | EmptyString => 0
  | String d r => (if Ascii.eqb c d then 1 else 0) + count_char c r
  end.

Fixpoint drop_spaces (l : list ascii) : list ascii :=
  match l with
  | c :: r => if is_space c then drop_spaces r else l
  | [] => []
  end.

(** [s.rstrip()] *)
Definition rstrip (s : string) : string :=
  string_of_list_ascii (rev (drop_spaces (rev (list_ascii_of_string s)))).

(** [s.endswith(c)] for a one-character suffix. *)
Definition endswith_char (c : ascii) (s : string) : bool :=
  match rev (list_ascii_of_string s) with
  | d :: _ => Ascii.eqb c d
  | [] => false
  end.

(** [s[-n:]] *)
Definition last_chars (n : nat) (s : string) : string :=
  substring (String.length s - n) n s.

(** [str(n)] for a natural number. *)
Fixpoint digits_aux (fuel n : nat) (acc : string) : string :=
  match fuel with
  | O => acc
  | S f =>
      let acc' := String (ascii_of_nat (48 + n mod 10)) acc in
      if Nat.ltb n 10 then acc' else digits_aux f (n / 10) acc'
  end.

Definition string_of_nat (n : nat) : string := digits_aux (S n) n "".

(** [c * n] for a one-character string. *)
Fixpoint repeat_char (c : ascii) (n : nat) : string :=
  match n with
  | O => EmptyString
  | S k => String c (repeat_char c k)
  end.

(** [s.upper()] for ASCII. *)
Definition upper_char (c : ascii) : ascii :=
  let n := nat_of_ascii c in
  if Nat.leb 97 n && Nat.leb n 122 then ascii_of_nat (n - 32) else c.

Fixpoint upper (s : string) : string :=
  match s with
  | EmptyString => EmptyString
  | String c r => String (upper_char c) (upper r)
  end.

(* ------------------------------------------------------------------ *)
(** ** [re.findall] *)

(** A compiled pattern: given the character before the current position
    ([None] at the start of the text) and the remaining text, the length of
    the match found there, if any. *)
Definition matcher := option ascii -> string -> option nat.

(** [^] under [re.MULTILINE]: start of text or just after a newline. *)
Definition at_bol (prev : option ascii) : bool :=
  match prev with
  | None => true
  | Some c => Ascii.eqb c nl
  end.

(** The scan of [re.finditer]: [skip] characters of the last match are
    still to be passed over before the next attempt. *)
Fixpoint scan (m : matcher) (prev : option ascii) (skip : nat) (s : string)
  : nat :=
  match s with
  | EmptyString =>
      match skip, m prev EmptyString with
      | O, Some _ => 1
      | _, _ => 0
      end
  | String c r =>
      match skip with
      | S k => scan m (Some c) k r
      | O =>
          match m prev s with
          | Some n => 1 + scan m (Some c) (n - 1) r
          | None => scan m (Some c) 0 r
          end
      end
  end.

(** [len(re.findall(pattern, content, flags))] *)
Definition findall_count (m : matcher) (content : string) : nat :=
  scan m None 0 content.

(** A pattern that starts with [^] under [re.MULTILINE] and whose other
    atoms, tested by [q] on the text that follows, match [len] characters. *)
Definition line_matcher (q : string -> bool) (len : nat) : matcher :=
  fun prev s => if at_bol prev && q s then Some len else None.

(** [## \d\. ] at the current position. *)
Definition numbered_header (s : string) : bool :=
  match s with
  | String a (String b (String c (String d (String e (String f _))))) =>
      Ascii.eqb a "#" && Ascii.eqb b "#" && Ascii.eqb c " " && is_digit d
      && Ascii.eqb e "." && Ascii.eqb f " "
  | _ => false
  end.

(** [r'^## \d\. '] with [re.MULTILINE] *)
Definition m_sections : matcher := line_matcher numbered_header 6.

(** [r'^## '] with [re.MULTILINE] *)
Definition m_all_headers : matcher := line_matcher (prefix "## ") 3.

(** [$] under [re.MULTILINE]: end of text or just before a newline. *)
Definition at_eol (s : string) : bool :=
  match s with
  | EmptyString => true
  | String c _ => Ascii.eqb c nl
  end.

(** [---$] at the current position. *)
Definition horizontal_rule_at (s : string) : bool :=
  match s with
  | String a (String b (String c r)) =>
      Ascii.eqb a "-" && Ascii.eqb b "-" && Ascii.eqb c "-" && at_eol r
  | _ => false
  end.

(** [r'^---$'] with [re.MULTILINE] *)
Definition m_horizontal_rule : matcher := line_matcher horizontal_rule_at 3.

(** [r'## \d\. .+?\n\n\*\*Impact:\*\*'] with [re.MULTILINE | re.DOTALL]:
    the pattern has no anchor, so the flag [MULTILINE] plays no part;
    under [DOTALL] the lazy [.+?] takes one or more characters of any kind,
    newlines included, and stops at the first place where the rest of the
    pattern matches. *)
Definition impact_marker : string := String nl (String nl "**Impact:**").

(** Offset of the first occurrence of [w] in [s]. *)
Fixpoint find_from (w s : string) : option nat :=
  if prefix w s then Some 0
  else match s with
       | EmptyString => None
       | String _ r => option_map S (find_from w r)
       end.

Definition m_section_metadata : matcher := fun _ s =>
  match s with
  | String _ (String _ (String _ (String _ (String _ (String _
      (String _ r)))))) =>
      if numbered_header s then
        match find_from impact_marker r with
        | Some k => Some (6 + S k + String.length impact_marker)
        | None => None
        end
      else None
  | _ => None
  end.

(* ------------------------------------------------------------------ *)
(** ** [final_verify.py]: the structural census *)

Definition count_sections (content : string) : nat :=
  findall_count m_sections content.

Definition count_all_headers (content : string) : nat :=
  findall_count m_all_headers content.

Definition count_sections_with_metadata (content : string) : nat :=
  findall_count m_section_metadata content.

Definition count_horizontal_rules (content : string) : nat :=
  findall_count m_horizontal_rule content.

Definition count_lines (content : string) : nat := count_char nl content.

Definition toc_line : string := "✓ Table of Contents present".
Definition metadata_line : string :=
  "✓ Header metadata present (Version, Organization, Date)".
Definition abstract_line : string := "✓ Abstract present".
Definition ending_line : string := "✓ File ends with proper content".
Definition banner_line : string :=
  String nl "✅ AGENTS.md file is complete and well-formed!".
Definition summary_line : string := String nl "📊 Summary:".

(** [if cond: print(line)] *)
Definition print_if (b : bool) (line : string) : list string :=
  if b then [line] else [].

(** The lines printed by [final_verify.py] once [content] is read. *)
Definition census_output (content : string) : list string :=
  let sections := count_sections content in
  let all_headers := count_all_headers content in
  let sections_with_metadata := count_sections_with_metadata content in
  let horizontal_rules := count_horizontal_rules content in
  let lines := count_lines content in
  ["✓ Number of main sections: " ++ string_of_nat sections;
   "✓ Total headers (##): " ++ string_of_nat all_headers]
  ++ print_if (contains "## Table of Contents" content) toc_line
  ++ print_if (contains "**Version:**" content
               && contains "**Organization:**" content
               && contains "**Date:**" content) metadata_line
  ++ print_if (contains "## Abstract" content) abstract_line
  ++ ["✓ Sections with metadata: " ++ string_of_nat sections_with_metadata
        ++ "/7";
      "✓ Horizontal rule separators: " ++ string_of_nat horizontal_rules;
      "✓ Total lines: " ++ string_of_nat lines]
  ++ print_if (endswith_char "]" (rstrip content)
               || contains "Reference:" (last_chars 200 content)) ending_line
  ++ [banner_line;
      summary_line;
      "   - 7 main sections";
      "   - 23 rules total";
      "   - " ++ string_of_nat lines ++ " lines";
      "   - All rules properly formatted and organized"].

(* ------------------------------------------------------------------ *)
(** ** [verify_sections.py]: the catalog membership check *)

(** The dict [sections], in its insertion order. *)
Definition sections : list (string * list string) :=
  [("route", ["Use Route-Based Code Splitting";
              "Use Loading Substates for Better UX";
              "Parallel Data Loading in Model Hooks"]);
   ("bundle", ["Avoid Importing Entire Addon Namespaces";
               "Use Embroider Static Mode";
               "Lazy Load Heavy Dependencies"]);
   ("component", ["Use @cached for Expensive Getters";
                  "Avoid Unnecessary Tracking";
                  "Use Tracked Toolbox for Complex State";
                  "Use Glimmer Components Over Classic Components"]);
   ("a11y", ["Use ember-a11y-testing for Automated Checks";
             "Form Labels and Error Announcements";
             "Keyboard Navigation Support";
             "Announce Route Transitions to Screen Readers";
             "Semantic HTML and ARIA Attributes"]);
   ("service", ["Cache API Responses in Services";
                "Optimize Ember Data Queries";
                "Use Services for Shared State"]);
   ("template", ["Avoid Heavy Computation in Templates";
                 "Use {{#each}} with @key for Lists";
                 "Use {{#let}} to Avoid Recomputation"]);
   ("advanced", ["Use Helpers for Template Logic";
                 "Use Modifiers for DOM Side Effects"])].

Definition found_line (rule : string) : string := "  ✓ " ++ rule.
Definition missing_line (rule : string) : string := "  ✗ MISSING: " ++ rule.

(** The loop state: [total_rules] and the lines printed so far. *)
Record loop_state := { total_rules : nat; printed : list string }.

(** One iteration of the inner loop. *)
Definition check_rule (content : string) (st : loop_state) (rule : string)
  : loop_state :=
  if contains ("## " ++ rule) content then
    {| total_rules := S (total_rules st);
       printed := printed st ++ [found_line rule] |}
  else
    {| total_rules := total_rules st;
       printed := printed st ++ [missing_line rule] |}.

Definition category_line (prefix : string) (rules : list string) : string :=
  String nl (upper prefix ++ " (" ++ string_of_nat (List.length rules)
             ++ " rules):").

(** One iteration of the outer loop. *)
Definition check_category (content : string) (st : loop_state)
    (entry : string * list string) : loop_state :=
  let '(prefix, rules) := entry in
  fold_left (check_rule content) rules
    {| total_rules := total_rules st;
       printed := printed st ++ [category_line prefix rules] |}.

Definition rule_check (content : string) : loop_state :=
  fold_left (check_category content) sections
    {| total_rules := 0;
       printed := ["Verifying all rules are present in AGENTS.md:";
                   repeat_char "=" 60] |}.

(** The lines printed by [verify_sections.py] once [content] is read. *)
Definition membership_output (content : string) : list string :=
  let st := rule_check content in
  printed st
  ++ [String nl (repeat_char "=" 60);
      "Total rules found: " ++ string_of_nat (total_rules st) ++ "/23"].

(* ------------------------------------------------------------------ *)
(** ** Running a script *)

(** The part of the machine a script touches: the files under the working
    directory, read only, and the standard output. *)
Record world := { files : string -> option string; stdout : list string }.

(** [with open("AGENTS.md", "r") as f: content = f.read()] followed by the
    script body; a missing file raises, modelled as [None]. *)
Definition run_script (body : string -> list string) (w : world)
  : option world :=
  match files w "AGENTS.md" with
  | None => None
  | Some content =>
      Some {| files := files w; stdout := stdout w ++ body content |}
  end.

Definition run_final_verify : world -> option world :=
  run_script census_output.

Definition run_verify_sections : world -> option world :=
  run_script membership_output.

(* ------------------------------------------------------------------ *)
(** ** Lines of a document *)

(** [content.split('\n')] *)
Fixpoint split_lines (s : string) : list string :=
  match s with
  | EmptyString => [EmptyString]
  | String c r =>
      if Ascii.eqb c nl then EmptyString :: split_lines r
      else match split_lines r with
           | l :: ls => String c l :: ls
           | [] => [String c EmptyString]
           end
  end.

(** The text up to the first newline. *)
Fixpoint first_line (s : string) : string :=
  match s with
  | EmptyString => EmptyString
  | String c r => if Ascii.eqb c nl then EmptyString else String c (first_line r)
  end.

(** Number of lines of [content] satisfying [p]. *)
Definition lines_where (p : string -> bool) (content : string) : nat :=
  List.length (filter p (split_lines content)).

(** Number of lines of [content] equal to [t]. *)
Definition lines_equal_to (t content : string) : nat :=
  lines_where (fun l => String.eqb l t) content.

(** The line printed for one rule of the catalog. *)
Definition rule_line (content rule : string) : string :=
  if contains ("## " ++ rule) content then found_line rule
  else missing_line rule.

(** The lines printed for one category of the catalog. *)
Definition category_report (content : string) (entry : string * list string)
  : list string :=
  category_line (fst entry) (snd entry) :: map (rule_line content) (snd entry).

(** The titles of the catalog, in order. *)
Definition all_titles : list string := flat_map snd sections.

(** A document made of one header line [## t'] per title [t], where [t']
    is [alter t]. *)
Definition headed_doc (alter : string -> string) : string :=
  String.concat "" (map (fun t => "## " ++ alter t ++ String nl "") all_titles).

(** Only digits. *)
Definition digits_only (s : string) : bool :=
  forallb is_digit (list_ascii_of_string s).

(** A numbered section whose [**Impact:**] block comes after a line of
    text, not right after the heading and one blank line. *)
Definition distant_impact_doc : string :=
  "## 1. Intro" ++ String nl "Text" ++ String nl (String nl "**Impact:** HIGH")
  ++ String nl "".

(** The catalog's title [Use Embroider Static Mode] gets a trailing [!]. *)
Definition punctuated_doc : string :=
  headed_doc (fun t => if String.eqb t "Use Embroider Static Mode"
                       then t ++ "!" else t).

(** Number of titles whose header occurs in [content]. *)
Definition titles_found (content : string) (titles : list string) : nat :=
  List.length (filter (fun t => contains ("## " ++ t) content) titles).

(** A file system holding only [AGENTS.md]. *)
Definition agents_only (content : string) : string -> option string :=
  fun path => if String.eqb path "AGENTS.md" then Some content else None.

(** The file system of the examples. *)
Definition agents_fs : string -> option string :=
  agents_only distant_impact_doc.

(** A header block with [**Version:**] and [**Organization:**] but no
    [**Date:**]. *)
Definition no_date_doc : string :=
  "**Version:** 1" ++ String nl "**Organization:** Ember".

Arguments string_of_nat : simpl never.

(* ================================================================== *)
(** * Properties *)

(** ** Lines *)

Lemma split_lines_first (s : string) :
  split_lines s = first_line s :: tl (split_lines s).
Proof.
  induction s as [|c r IH]; [reflexivity|].
  simpl. destruct (Ascii.eqb c nl); [reflexivity|].
  rewrite IH. reflexivity.
Qed.

Lemma tl_split_lines_mid (c : ascii) (r : string) :
  Ascii.eqb c nl = false -> tl (split_lines (String c r)) = tl (split_lines r).
Proof.
  intros Hc. simpl. rewrite Hc, (split_lines_first r). reflexivity.
Qed.

Lemma first_line_mid (c : ascii) (r : string) :
  Ascii.eqb c nl = false -> first_line (String c r) = String c (first_line r).
Proof. intros Hc. simpl. rewrite Hc. reflexivity. Qed.

(** ** [re.findall] with a line-anchored pattern counts lines *)

Section LineAnchored.
Variable q : string -> bool.
Variable len : nat.
(** [q] looks only at the current line ... *)
Hypothesis q_local : forall s, q s = q (first_line s).
(** ... and a match is non-empty and stays inside that line. *)
Hypothesis q_len : forall s, q s = true ->
  1 <= len <= String.length (first_line s).

Let m := line_matcher q len.

Lemma q_empty : q EmptyString = false.
Proof.
  destruct (q EmptyString) eqn:Hq; [|reflexivity].
  apply q_len in Hq. simpl in Hq. lia.
Qed.

Lemma scan_skip_in_line (n : nat) (c : ascii) (r : string) :
  Ascii.eqb c nl = false -> n <= String.length (first_line r) ->
  scan m (Some c) n r = scan m (Some c) 0 r.
Proof.
  revert c r. induction n as [|n IH]; intros c r Hc Hn; [reflexivity|].
  destruct r as [|d r]; [simpl in Hn; lia|].
  simpl in Hn. destruct (Ascii.eqb d nl) eqn:Hd; [simpl in Hn; lia|].
  simpl in Hn. simpl. unfold m at 2, line_matcher. simpl. rewrite Hc. simpl.
  apply IH; [exact Hd | lia].
Qed.

Lemma scan_lines (s : string) :
  (forall prev, at_bol prev = true ->
     scan m prev 0 s = List.length (filter q (split_lines s)))
  /\ (forall c, Ascii.eqb c nl = false ->
     scan m (Some c) 0 s = List.length (filter q (tl (split_lines s)))).
Proof.
  induction s as [|c r [IHbol IHmid]].
  - split.
    + intros prev Hp. simpl. unfold m, line_matcher. rewrite Hp. simpl.
      rewrite q_empty. reflexivity.
    + intros c Hc. simpl. unfold m, line_matcher. simpl. rewrite Hc.
      reflexivity.
  - split.
    + intros prev Hp. simpl scan. unfold m at 1, line_matcher.
      rewrite Hp. simpl andb.
      destruct (Ascii.eqb c nl) eqn:Hc.
      * apply Ascii.eqb_eq in Hc. subst c.
        rewrite q_local. simpl. rewrite q_empty.
        rewrite IHbol by reflexivity. reflexivity.
      * rewrite (split_lines_first (String c r)), first_line_mid by exact Hc.
        rewrite tl_split_lines_mid by exact Hc.
        assert (Hq' : q (String c (first_line r)) = q (String c r))
          by (rewrite <- first_line_mid by exact Hc; symmetry; apply q_local).
        cbn [filter]. rewrite Hq'.
        destruct (q (String c r)) eqn:Hq.
        -- pose proof (q_len _ Hq) as Hl.
           rewrite first_line_mid in Hl by exact Hc. simpl in Hl.
           fold m. rewrite scan_skip_in_line by (auto; lia).
           rewrite IHmid by exact Hc. reflexivity.
        -- fold m. apply IHmid. exact Hc.
    + intros d Hd. simpl scan. unfold m at 1, line_matcher. simpl.
      rewrite Hd. simpl. fold m.
      destruct (Ascii.eqb c nl) eqn:Hc.
      * apply Ascii.eqb_eq in Hc. subst c. simpl.
        rewrite IHbol by reflexivity. reflexivity.
      * rewrite (split_lines_first r). apply IHmid. exact Hc.
Qed.

Lemma findall_count_lines (s : string) :
  findall_count m s = lines_where q s.
Proof. apply (proj1 (scan_lines s)). reflexivity. Qed.
End LineAnchored.

(** ** The three line-anchored patterns of the census *)

Lemma digit_not_nl (d : ascii) : is_digit d = true -> Ascii.eqb d nl = false.
Proof.
  intros H. destruct (Ascii.eqb d nl) eqn:E; [|reflexivity].
  apply Ascii.eqb_eq in E. subst d. discriminate H.
Qed.

Lemma prefix_first_line (w s : string) :
  forallb (fun c => negb (Ascii.eqb c nl)) (list_ascii_of_string w) = true ->
  prefix w s = prefix w (first_line s).
Proof.
  revert s. induction w as [|a w IH]; intros s Hw.
  { destruct s as [|c s]; [reflexivity|]. simpl.
    destruct (Ascii.eqb c nl); reflexivity. }
  simpl in Hw. apply andb_true_iff in Hw as [Ha Hw].
  destruct s as [|c s]; [reflexivity|]. simpl.
  destruct (Ascii.eqb c nl) eqn:Hc.
  - apply Ascii.eqb_eq in Hc. subst c.
    destruct (ascii_dec a nl) as [->|]; [discriminate Ha|reflexivity].
  - simpl. destruct (ascii_dec a c); [apply IH, Hw|reflexivity].
Qed.

(** Case analysis on the characters that a pattern reads. *)
Ltac split_nl_cases :=
  repeat match goal with
  | |- context [Ascii.eqb ?c nl] =>
      is_var c; let E := fresh "E" in
      destruct (Ascii.eqb c nl) eqn:E; [apply Ascii.eqb_eq in E; subst c|]
  end.

Ltac bool_cases :=
  repeat match goal with
  | |- context [Ascii.eqb ?c ?d] => is_var c; destruct (Ascii.eqb c d)
  | |- context [is_digit ?c] => is_var c; destruct (is_digit c)
  end.

Lemma numbered_header_local (s : string) :
  numbered_header s = numbered_header (first_line s).
Proof.
  destruct s as [|c1 [|c2 [|c3 [|c4 [|c5 [|c6 s]]]]]]; simpl first_line;
    split_nl_cases; simpl; bool_cases; reflexivity.
Qed.

Lemma numbered_header_len (s : string) :
  numbered_header s = true -> 1 <= 6 <= String.length (first_line s).
Proof.
  destruct s as [|c1 [|c2 [|c3 [|c4 [|c5 [|c6 s]]]]]]; simpl; try discriminate.
  intros H. repeat rewrite andb_true_iff in H.
  destruct H as [[[[[H1 H2] H3] H4] H5] H6].
  apply Ascii.eqb_eq in H1, H2, H3, H5, H6. subst.
  rewrite (digit_not_nl _ H4). simpl. lia.
Qed.

Lemma all_headers_local (s : string) :
  prefix "## " s = prefix "## " (first_line s).
Proof. apply prefix_first_line. reflexivity. Qed.

Lemma all_headers_len (s : string) :
  prefix "## " s = true -> 1 <= 3 <= String.length (first_line s).
Proof.
  intros H. rewrite all_headers_local in H.
  destruct (first_line s) as [|a [|b [|c t]]];
    cbn [prefix String.length] in H |- *;
    repeat match type of H with
           | context [ascii_dec ?x ?y] => destruct (ascii_dec x y)
           end; try discriminate; lia.
Qed.

Lemma horizontal_rule_local (s : string) :
  horizontal_rule_at s = horizontal_rule_at (first_line s).
Proof.
  destruct s as [|c1 [|c2 [|c3 [|c4 s]]]]; simpl first_line;
    split_nl_cases; simpl; bool_cases; reflexivity.
Qed.

Lemma horizontal_rule_len (s : string) :
  horizontal_rule_at s = true -> 1 <= 3 <= String.length (first_line s).
Proof.
  destruct s as [|c1 [|c2 [|c3 s]]]; simpl; try discriminate.
  intros H. repeat rewrite andb_true_iff in H.
  destruct H as [[[H1 H2] H3] _].
  apply Ascii.eqb_eq in H1, H2, H3. subst. simpl. lia.
Qed.

Lemma count_sections_lines (content : string) :
  count_sections content = lines_where numbered_header content.
Proof.
  apply findall_count_lines; [apply numbered_header_local|apply numbered_header_len].
Qed.

Lemma count_all_headers_lines (content : string) :
  count_all_headers content = lines_where (prefix "## ") content.
Proof.
  apply findall_count_lines; [apply all_headers_local|apply all_headers_len].
Qed.

Lemma count_horizontal_rules_lines (content : string) :
  count_horizontal_rules content = lines_where horizontal_rule_at content.
Proof.
  apply findall_count_lines;
    [apply horizontal_rule_local|apply horizontal_rule_len].
Qed.

Lemma first_line_idem (s : string) : first_line (first_line s) = first_line s.
Proof.
  induction s as [|c r IH]; [reflexivity|]. simpl.
  destruct (Ascii.eqb c nl) eqn:Hc; [reflexivity|].
  simpl. rewrite Hc, IH. reflexivity.
Qed.

(** The pieces of [content.split('\n')] hold no newline. *)
Lemma split_lines_no_nl (s l : string) :
  In l (split_lines s) -> first_line l = l.
Proof.
  induction s as [|c r IH]; simpl.
  - intros [<-|[]]. reflexivity.
  - destruct (Ascii.eqb c nl) eqn:Hc.
    + intros [<-|Hl]; [reflexivity|]. apply IH, Hl.
    + rewrite (split_lines_first r). intros [<-|Hl].
      * simpl. rewrite Hc, first_line_idem. reflexivity.
      * apply IH. rewrite (split_lines_first r). right. exact Hl.
Qed.

(** On a line, [^---$] matches exactly when the line is [---]. *)
Lemma horizontal_rule_line (l : string) :
  first_line l = l -> horizontal_rule_at l = String.eqb l "---".
Proof.
  destruct l as [|c1 [|c2 [|c3 [|c4 r]]]]; simpl; intros H;
    try reflexivity;
    repeat match type of H with
           | context [Ascii.eqb ?c nl] =>
               let E := fresh "E" in
               destruct (Ascii.eqb c nl) eqn:E; [discriminate H|]
           | _ => injection H; clear H; intros H
           end;
    try rewrite E3; bool_cases; reflexivity.
Qed.

Lemma numbered_header_is_header (l : string) :
  numbered_header l = true -> prefix "## " l = true.
Proof.
  destruct l as [|c1 [|c2 [|c3 [|c4 [|c5 [|c6 s]]]]]]; simpl; try discriminate.
  intros H. repeat rewrite andb_true_iff in H.
  destruct H as [[[[[H1 H2] H3] _] _] _].
  apply Ascii.eqb_eq in H1, H2, H3. subst. reflexivity.
Qed.

Lemma filter_length_mono (A : Type) (p r : A -> bool) (l : list A) :
  (forall x, p x = true -> r x = true) ->
  List.length (filter p l) <= List.length (filter r l).
Proof.
  intros Hpr. induction l as [|x l IH]; [reflexivity|]. simpl.
  destruct (p x) eqn:Hp.
  - rewrite (Hpr x Hp). simpl. lia.
  - destruct (r x); simpl; lia.
Qed.

(** ** C2: the main-section count *)

(** C2: the main-section count printed first by the census is the number
    of lines of the document that start with [## ], one digit, [.] and a
    space; it is therefore K for a document with exactly K such lines, and 0
    when there are none. *)
Theorem main_section_count_is_numbered_lines (content : string) :
  count_sections content = lines_where numbered_header content
  /\ hd EmptyString (census_output content)
     = "✓ Number of main sections: "
       ++ string_of_nat (lines_where numbered_header content).
Proof.
  rewrite <- count_sections_lines. split; reflexivity.
Qed.

(** ** C7: the horizontal-rule count *)

(** C7: the horizontal-rule count printed by the census is the number of
    lines of the document that are exactly [---] (0 when there is none). *)
Theorem horizontal_rule_count_is_dash_lines (content : string) :
  count_horizontal_rules content = lines_equal_to "---" content
  /\ In ("✓ Horizontal rule separators: "
         ++ string_of_nat (lines_equal_to "---" content))
        (census_output content).
Proof.
  assert (Hk : count_horizontal_rules content = lines_equal_to "---" content).
  { rewrite count_horizontal_rules_lines. unfold lines_equal_to, lines_where.
    f_equal.
    apply filter_ext_in. intros l Hl.
    apply horizontal_rule_line, (split_lines_no_nl content), Hl. }
  split; [exact Hk|].
  unfold census_output. fold (count_horizontal_rules content). rewrite Hk.
  do 4 (apply in_or_app; right). apply in_or_app. left.
  right. left. reflexivity.
Qed.

(** ** C9: main sections are among the headers *)

(** C9: the main-section count never exceeds the total header count, as
    every line starting with [## \d\. ] also starts with [## ]. *)
Theorem main_sections_le_all_headers (content : string) :
  count_sections content <= count_all_headers content.
Proof.
  rewrite count_sections_lines, count_all_headers_lines.
  apply filter_length_mono, numbered_header_is_header.
Qed.

(** ** The census output *)

Lemma digits_aux_digits (f n : nat) (acc : string) :
  digits_only acc = true -> digits_only (digits_aux f n acc) = true.
Proof.
  revert n acc. induction f as [|f IH]; intros n acc Hacc; [exact Hacc|].
  simpl.
  assert (Hd : digits_only (String (ascii_of_nat (48 + n mod 10)) acc) = true).
  { unfold digits_only. cbn [list_ascii_of_string forallb].
    rewrite andb_true_iff. split; [|exact Hacc].
    unfold is_digit. rewrite nat_ascii_embedding.
    - pose proof (Nat.mod_upper_bound n 10). apply andb_true_iff.
      split; apply Nat.leb_le; lia.
    - pose proof (Nat.mod_upper_bound n 10). lia. }
  destruct (Nat.ltb n 10); [exact Hd|]. apply IH, Hd.
Qed.

Lemma string_of_nat_digits (n : nat) : digits_only (string_of_nat n) = true.
Proof. apply digits_aux_digits. reflexivity. Qed.

Lemma append_empty_r (s : string) : s ++ "" = s.
Proof. induction s as [|c s IH]; [reflexivity|]. simpl. rewrite IH. reflexivity. Qed.

(** A word that does not start with a digit is never found inside a run
    of digits. *)
Lemma contains_skip_digits (c : ascii) (w s q : string) :
  is_digit c = false -> digits_only s = true ->
  contains (String c w) (s ++ q) = contains (String c w) q.
Proof.
  intros Hc. induction s as [|d s IH]; intros Hs; [reflexivity|].
  unfold digits_only in Hs. cbn [list_ascii_of_string forallb] in Hs.
  apply andb_true_iff in Hs as [Hd Hs].
  cbn [append contains prefix]. rewrite <- IH by exact Hs.
  destruct (ascii_dec c d) as [->|]; [congruence|reflexivity].
Qed.


(** Splits a hypothesis [In l (census_output content)] into one goal per
    line that the census may print. *)
Ltac census_line_cases H :=
  try unfold census_output, print_if in H; repeat rewrite in_app_iff in H;
  repeat match type of H with
         | context [if ?b then _ else _] => destruct b
         end;
  simpl In in H;
  repeat match type of H with
         | _ \/ _ => destruct H as [H|H]
         | False => destruct H
         end.

(** ** C5: the metadata labels *)

(** C5: the census prints its header-metadata line if and only if the
    document contains all three of [**Version:**], [**Organization:**] and
    [**Date:**]; when any one of them is missing, no line of the census
    output even begins with [✓ Header metadata]. *)
Theorem metadata_line_iff_all_labels (content : string) :
  (In metadata_line (census_output content) <->
   contains "**Version:**" content && contains "**Organization:**" content
   && contains "**Date:**" content = true)
  /\ (contains "**Version:**" content && contains "**Organization:**" content
      && contains "**Date:**" content = false ->
      forall l, In l (census_output content) ->
      prefix "✓ Header metadata" l = false).
Proof.
  split.
  - split.
    + intros H.
      destruct (contains "**Version:**" content
                && contains "**Organization:**" content
                && contains "**Date:**" content) eqn:E; [reflexivity|].
      unfold census_output, print_if in H. rewrite E in H.
      census_line_cases H; discriminate H.
    + intros E. unfold census_output, print_if. rewrite E.
      repeat rewrite in_app_iff. right. right. left. left. reflexivity.
  - intros E l H. unfold census_output, print_if in H. rewrite E in H.
    census_line_cases H; subst l; reflexivity.
Qed.

Lemma contains_digits_only (c : ascii) (w s : string) :
  is_digit c = false -> digits_only s = true -> contains (String c w) s = false.
Proof.
  intros Hc Hs. rewrite <- (append_empty_r s).
  rewrite contains_skip_digits by assumption. reflexivity.
Qed.

(** ** C6: the table-of-contents line *)

(** C6: the census prints its table-of-contents line if and only if
    [## Table of Contents] occurs verbatim in the document; when it does not,
    no line of the census output mentions [Table of Contents] at all, and a
    document whose only such header is written [## table of contents] gets no
    table-of-contents line. *)
Theorem toc_line_iff_marker (content : string) :
  (In toc_line (census_output content) <->
   contains "## Table of Contents" content = true)
  /\ (contains "## Table of Contents" content = false ->
      forall l, In l (census_output content) ->
      contains "Table of Contents" l = false)
  /\ ~ In toc_line (census_output "## table of contents").
Proof.
  assert (Hiff : forall d, In toc_line (census_output d) <->
                           contains "## Table of Contents" d = true).
  { intros d. split.
    - intros H. destruct (contains "## Table of Contents" d) eqn:E;
        [reflexivity|].
      unfold census_output, print_if in H. rewrite E in H.
      census_line_cases H; discriminate H.
    - intros E. unfold census_output, print_if. rewrite E.
      repeat rewrite in_app_iff. right. left. left. reflexivity. }
  split; [apply Hiff|]. split.
  - intros E l H. unfold census_output, print_if in H. rewrite E in H.
    census_line_cases H; subst l; simpl;
      repeat first
        [ rewrite contains_skip_digits by (reflexivity || apply string_of_nat_digits)
        | rewrite contains_digits_only by (reflexivity || apply string_of_nat_digits) ];
      reflexivity.
  - rewrite Hiff. discriminate.
Qed.

(** ** C10: the closing summary *)

(** C10: whatever the document, the census output ends with the completion
    banner and a summary whose section and rule figures are the literals
    [7 main sections] and [23 rules total]; only the line count in the
    summary comes from the document. *)
Theorem census_ends_with_fixed_summary (content : string) :
  exists pre,
    census_output content =
    app pre [banner_line; summary_line; "   - 7 main sections";
             "   - 23 rules total";
             "   - " ++ string_of_nat (count_lines content) ++ " lines";
             "   - All rules properly formatted and organized"].
Proof.
  unfold census_output. eexists. repeat rewrite app_assoc. reflexivity.
Qed.

(** ** C1: the sections-with-metadata count *)

(** C1: on [distant_impact_doc], whose numbered heading is followed by a
    line of text and only then by a blank line and [**Impact:**], the
    sections-with-metadata count is 1, not 0: the lazy [.+?] runs under
    [re.DOTALL] and so crosses the end of the heading line. *)
Theorem section_metadata_counts_distant_impact :
  split_lines distant_impact_doc
  = ["## 1. Intro"; "Text"; ""; "**Impact:** HIGH"; ""]
  /\ count_sections_with_metadata distant_impact_doc = 1
  /\ In "✓ Sections with metadata: 1/7" (census_output distant_impact_doc).
Proof.
  split; [reflexivity|]. split; [vm_compute; reflexivity|].
  assert (H : count_sections_with_metadata distant_impact_doc = 1)
    by (vm_compute; reflexivity).
  unfold census_output. rewrite H.
  do 4 (apply in_or_app; right). apply in_or_app. left. left. reflexivity.
Qed.

(** ** The catalog membership check *)

Lemma fold_check_rule (content : string) (rules : list string)
    (st : loop_state) :
  fold_left (check_rule content) rules st =
  {| total_rules := total_rules st + titles_found content rules;
     printed := app (printed st) (map (rule_line content) rules) |}.
Proof.
  revert st. induction rules as [|r rules IH]; intros st.
  - destruct st. simpl. rewrite Nat.add_0_r, app_nil_r. reflexivity.
  - cbn [fold_left]. rewrite IH. unfold check_rule, rule_line, titles_found.
    cbn [filter map].
    destruct (contains ("## " ++ r) content); cbn [total_rules printed length];
      rewrite <- app_assoc; f_equal; lia.
Qed.

Lemma titles_found_app (content : string) (l1 l2 : list string) :
  titles_found content (app l1 l2)
  = titles_found content l1 + titles_found content l2.
Proof. unfold titles_found. rewrite filter_app, length_app. reflexivity. Qed.

Lemma fold_check_category (content : string)
    (cats : list (string * list string)) (st : loop_state) :
  fold_left (check_category content) cats st =
  {| total_rules := total_rules st + titles_found content (flat_map snd cats);
     printed := app (printed st) (flat_map (category_report content) cats) |}.
Proof.
  revert st. induction cats as [|[p rules] cats IH]; intros st.
  - destruct st. simpl. rewrite Nat.add_0_r, app_nil_r. reflexivity.
  - simpl. rewrite fold_check_rule, IH. simpl.
    rewrite titles_found_app, Nat.add_assoc. f_equal.
    unfold category_report. simpl. rewrite <- !app_assoc. reflexivity.
Qed.

Lemma membership_output_eq (content : string) :
  membership_output content =
  app (app ["Verifying all rules are present in AGENTS.md:";
            repeat_char "=" 60]
           (flat_map (category_report content) sections))
      [String nl (repeat_char "=" 60);
       "Total rules found: " ++ string_of_nat (titles_found content all_titles)
       ++ "/23"].
Proof.
  unfold membership_output, rule_check. rewrite fold_check_category.
  reflexivity.
Qed.

Lemma prefix_app_l (a b s : string) :
  prefix (a ++ b) s = true -> prefix a s = true.
Proof.
  revert s. induction a as [|c a IH]; intros s H; [destruct s; reflexivity|].
  destruct s as [|d s]; [discriminate H|]. simpl in *.
  destruct (ascii_dec c d); [apply IH, H|discriminate H].
Qed.

Lemma contains_app_l (a b s : string) :
  contains (a ++ b) s = true -> contains a s = true.
Proof.
  induction s as [|c s IH]; cbn [contains]; intros H.
  - apply orb_true_iff in H as [H|H]; [|discriminate H].
    rewrite (prefix_app_l _ _ _ H). reflexivity.
  - apply orb_true_iff in H as [H|H].
    + rewrite (prefix_app_l _ _ _ H). reflexivity.
    + rewrite (IH H). apply orb_true_r.
Qed.

Lemma titles_found_all (content : string) (titles : list string) :
  (forall t, In t titles -> contains ("## " ++ t) content = true) ->
  titles_found content titles = List.length titles.
Proof.
  intros H. unfold titles_found. f_equal. apply forallb_filter_id.
  apply forallb_forall. exact H.
Qed.

(** ** C3: a document with every title *)

(** C3: when every title of the catalog occurs in the document as
    [## ] followed by the exact title, the catalog check counts 23 titles
    found, prints [Total rules found: 23/23], and prints no
    [✗ MISSING] line. *)
Theorem all_titles_headed_all_found (content : string) :
  (forall t, In t all_titles -> contains ("## " ++ t) content = true) ->
  total_rules (rule_check content) = 23
  /\ In "Total rules found: 23/23" (membership_output content)
  /\ (forall l, In l (membership_output content) ->
      prefix "  ✗ MISSING: " l = false).
Proof.
  intros Hall.
  assert (Hn : titles_found content all_titles = 23)
    by (rewrite titles_found_all by exact Hall; reflexivity).
  split; [unfold rule_check; rewrite fold_check_category; exact Hn|].
  rewrite membership_output_eq, Hn. split.
  - apply in_or_app. right. right. left. reflexivity.
  - intros l Hl. repeat rewrite in_app_iff in Hl.
    destruct Hl as [[Hl|Hl]|Hl].
    + destruct Hl as [<-|[<-|[]]]; reflexivity.
    + apply in_flat_map in Hl as [[p rules] [Hcat Hl]].
      destruct Hl as [<-|Hl]; [reflexivity|].
      apply in_map_iff in Hl as [t [<- Ht]]. unfold rule_line.
      rewrite Hall; [reflexivity|].
      apply in_flat_map. exists (p, rules). split; assumption.
    + destruct Hl as [<-|[<-|[]]]; reflexivity.
Qed.

(** C3, at a document made of the 23 header lines. *)
Lemma all_titles_headed_all_found_witness :
  total_rules (rule_check (headed_doc (fun t => t))) = 23
  /\ In "Total rules found: 23/23" (membership_output (headed_doc (fun t => t)))
  /\ Forall (fun l => prefix "  ✗ MISSING: " l = false)
            (membership_output (headed_doc (fun t => t))).
Proof.
  destruct (all_titles_headed_all_found (headed_doc (fun t => t)))
    as [H1 [H2 H3]];
    [apply forallb_forall; vm_compute; reflexivity|].
  split; [exact H1|]. split; [exact H2|]. apply Forall_forall. exact H3.
Defined.

(** ** C4: exact substring matching, every title reported *)

(** C4 (counterexample): in [punctuated_doc] the heading of
    [Use Embroider Static Mode] carries a trailing [!], yet the title is
    reported found and not missing: [## Use Embroider Static Mode] is still
    a substring of the altered heading. *)
Lemma punctuated_title_still_found :
  contains "## Use Embroider Static Mode!" punctuated_doc = true
  /\ In (found_line "Use Embroider Static Mode") (membership_output punctuated_doc)
  /\ ~ In (missing_line "Use Embroider Static Mode")
         (membership_output punctuated_doc).
Proof.
  split; [vm_compute; reflexivity|].
  assert (Hf : existsb (String.eqb (found_line "Use Embroider Static Mode"))
                       (membership_output punctuated_doc) = true)
    by (vm_compute; reflexivity).
  assert (Hm : existsb (String.eqb (missing_line "Use Embroider Static Mode"))
                       (membership_output punctuated_doc) = false)
    by (vm_compute; reflexivity).
  split.
  - apply existsb_exists in Hf as [l [Hl Heq]].
    apply String.eqb_eq in Heq. rewrite Heq. exact Hl.
  - intros Hin. assert (Hc : existsb (String.eqb
                         (missing_line "Use Embroider Static Mode"))
                         (membership_output punctuated_doc) = true).
    { apply existsb_exists. eexists. split; [exact Hin|].
      apply String.eqb_refl. }
    congruence.
Qed.

(** C4 (amended): the catalog check prints, category by category and title
    by title in declared order, one line per title, with no early stop: the
    found line when [## ] followed by the exact title is a substring of the
    document and the [✗ MISSING] line otherwise; no normalisation is
    applied, so any heading that still contains [## title], such as one with
    trailing punctuation appended, reports the title found. The final total
    is the number of titles found. *)
Theorem membership_reports_every_title (content : string) :
  membership_output content =
  app (app ["Verifying all rules are present in AGENTS.md:";
            repeat_char "=" 60]
           (flat_map (fun entry =>
                        category_line (fst entry) (snd entry)
                        :: map (fun rule =>
                                  if contains ("## " ++ rule) content
                                  then found_line rule
                                  else missing_line rule) (snd entry))
                     sections))
      [String nl (repeat_char "=" 60);
       "Total rules found: "
       ++ string_of_nat (List.length (filter (fun t => contains ("## " ++ t) content)
                                             all_titles))
       ++ "/23"]
  /\ (forall rule extra, contains ("## " ++ rule ++ extra) content = true ->
      rule_line content rule = found_line rule).
Proof.
  split; [apply membership_output_eq|].
  intros rule extra H. unfold rule_line.
  rewrite (contains_app_l ("## " ++ rule) extra).
  - reflexivity.
  - exact H.
Qed.

(** C4 (amended), at [punctuated_doc]. *)
Lemma membership_reports_every_title_witness :
  rule_line punctuated_doc "Use Embroider Static Mode"
  = found_line "Use Embroider Static Mode".
Proof.
  apply (proj2 (membership_reports_every_title punctuated_doc)
               "Use Embroider Static Mode" "!").
  vm_compute. reflexivity.
Defined.

(** C5, at a document that has [**Version:**] and [**Organization:**] but
    no [**Date:**]. *)
Lemma metadata_line_iff_all_labels_witness :
  ~ In metadata_line (census_output no_date_doc)
  /\ Forall (fun l => prefix "✓ Header metadata" l = false)
            (census_output no_date_doc).
Proof.
  destruct (metadata_line_iff_all_labels no_date_doc) as [Hiff Hno]. split.
  - intros H. apply Hiff in H. vm_compute in H. discriminate H.
  - apply Forall_forall. apply Hno. vm_compute. reflexivity.
Defined.

(** C6, at a document whose only table-of-contents header is lower case. *)
Lemma toc_line_iff_marker_witness :
  Forall (fun l => contains "Table of Contents" l = false)
         (census_output "## table of contents").
Proof.
  apply Forall_forall.
  apply (proj1 (proj2 (toc_line_iff_marker "## table of contents"))).
  vm_compute. reflexivity.
Defined.

(** ** C8: running a check twice *)

Lemma run_script_twice (body : string -> list string) (w w1 : world) :
  run_script body w = Some w1 ->
  exists w2 out,
    run_script body w1 = Some w2
    /\ stdout w1 = app (stdout w) out /\ stdout w2 = app (stdout w1) out.
Proof.
  unfold run_script. destruct (files w "AGENTS.md") as [content|] eqn:Hf;
    [|discriminate]. intros H. injection H as <-. simpl. rewrite Hf.
  eexists. exists (body content). split; [reflexivity|]. split; reflexivity.
Qed.

(** C8: both scripts only read [AGENTS.md] and append to the standard
    output; after a successful run, a second run on the resulting machine
    state succeeds and appends exactly the same lines as the first. *)
Theorem checks_rerun_identical (w w1 w1' : world) :
  run_final_verify w = Some w1 ->
  run_verify_sections w = Some w1' ->
  (exists w2 out,
     run_final_verify w1 = Some w2
     /\ stdout w1 = app (stdout w) out /\ stdout w2 = app (stdout w1) out)
  /\ (exists w2 out,
     run_verify_sections w1' = Some w2
     /\ stdout w1' = app (stdout w) out /\ stdout w2 = app (stdout w1') out).
Proof.
  intros H1 H2. split; eapply run_script_twice; eassumption.
Qed.

(** C8, on a machine whose [AGENTS.md] holds [distant_impact_doc]. *)
Lemma checks_rerun_identical_witness :
  (exists w2 out,
     run_final_verify (Build_world agents_fs (census_output distant_impact_doc))
       = Some w2
     /\ census_output distant_impact_doc = app [] out
     /\ stdout w2 = app (census_output distant_impact_doc) out)
  /\ (exists w2 out,
     run_verify_sections
       (Build_world agents_fs (membership_output distant_impact_doc)) = Some w2
     /\ membership_output distant_impact_doc = app [] out
     /\ stdout w2 = app (membership_output distant_impact_doc) out).
Proof.
  apply (checks_rerun_identical (Build_world agents_fs [])
           (Build_world agents_fs (census_output distant_impact_doc))
           (Build_world agents_fs (membership_output distant_impact_doc)));
    reflexivity.
Defined.

(* ================================================================== *)
(** * Further properties of the two scripts *)

(** ** The total header count *)

(** The census reports as its total header count the number of lines that
    begin with [## ]; a [### ] line does not begin with [## ] and is not
    counted. *)
Theorem total_headers_are_header_lines (content : string) :
  count_all_headers content = lines_where (prefix "## ") content
  /\ In ("✓ Total headers (##): "
         ++ string_of_nat (lines_where (prefix "## ") content))
        (census_output content).
Proof.
  rewrite <- count_all_headers_lines. split; [reflexivity|].
  right. left. reflexivity.
Qed.

(** ** The Abstract line *)

(** The census prints its Abstract line exactly when [## Abstract] occurs
    verbatim in the document. *)
Theorem abstract_line_iff_marker (content : string) :
  In abstract_line (census_output content) <->
  contains "## Abstract" content = true.
Proof.
  split.
  - intros H. destruct (contains "## Abstract" content) eqn:E; [reflexivity|].
    unfold census_output, print_if in H. rewrite E in H.
    census_line_cases H; discriminate H.
  - intros E. unfold census_output, print_if. rewrite E.
    repeat rewrite in_app_iff. right. right. right. left. left. reflexivity.
Qed.

(** ** The line count *)

Lemma count_nl_split_lines (s : string) :
  count_char nl s + 1 = List.length (split_lines s).
Proof.
  induction s as [|c r IH]; [reflexivity|]. cbn [count_char split_lines].
  rewrite (Ascii.eqb_sym nl c). destruct (Ascii.eqb c nl).
  - cbn [List.length]. lia.
  - rewrite (split_lines_first r) in *. cbn [List.length] in *. lia.
Qed.

(** The census's [Total lines] figure, printed twice, counts newline
    characters: it is one less than the number of pieces of
    [content.split('\n')], so a document without a final newline reports
    one line fewer than it shows. *)
Theorem total_lines_is_pieces_minus_one (content : string) :
  let n := List.length (split_lines content) - 1 in
  count_lines content = n
  /\ In ("✓ Total lines: " ++ string_of_nat n) (census_output content)
  /\ In ("   - " ++ string_of_nat n ++ " lines") (census_output content).
Proof.
  intros n.
  assert (Hn : count_lines content = n).
  { unfold n, count_lines. rewrite <- count_nl_split_lines. lia. }
  split; [exact Hn|].
  unfold census_output. rewrite Hn. split.
  - do 4 (apply in_or_app; right). apply in_or_app. left.
    right. right. left. reflexivity.
  - do 5 (apply in_or_app; right). apply in_or_app. right.
    do 4 right. left. reflexivity.
Qed.

(** ** Sections with metadata need an Impact marker *)

Lemma contains_tail (w : string) (c : ascii) (s : string) :
  contains w (String c s) = false -> contains w s = false.
Proof. cbn [contains]. intros H. apply orb_false_iff in H. apply H. Qed.

Lemma find_from_absent (w s : string) :
  contains w s = false -> find_from w s = None.
Proof.
  induction s as [|c s IH]; cbn [contains find_from]; intros H;
    apply orb_false_iff in H as [Hp Hr]; rewrite Hp; [reflexivity|].
  rewrite IH by exact Hr. reflexivity.
Qed.

Lemma section_metadata_absent (prev : option ascii) (s : string) :
  contains impact_marker s = false -> m_section_metadata prev s = None.
Proof.
  intros H.
  destruct s as [|c1 [|c2 [|c3 [|c4 [|c5 [|c6 [|c7 r]]]]]]]; try reflexivity.
  do 7 apply contains_tail in H. cbn [m_section_metadata].
  rewrite find_from_absent by exact H.
  destruct (numbered_header _); reflexivity.
Qed.

(** A document in which [\n\n**Impact:**] never occurs has no section with
    metadata, whatever its headings. *)
Theorem no_impact_marker_no_metadata_sections (content : string) :
  contains impact_marker content = false ->
  count_sections_with_metadata content = 0.
Proof.
  unfold count_sections_with_metadata, findall_count.
  assert (Hscan : forall s prev k, contains impact_marker s = false ->
                  scan m_section_metadata prev k s = 0).
  2: apply Hscan.
  induction s as [|c r IH]; intros prev k H.
  - cbn [scan]. rewrite section_metadata_absent by exact H.
    destruct k; reflexivity.
  - cbn [scan]. destruct k as [|k].
    + rewrite section_metadata_absent by exact H.
      apply IH, (contains_tail _ c), H.
    + apply IH, (contains_tail _ c), H.
Qed.

(** [no_impact_marker_no_metadata_sections], at a document with three
    numbered headings and no Impact marker. *)
Lemma no_impact_marker_no_metadata_sections_witness :
  count_sections_with_metadata
    ("## 1. A" ++ String nl (String nl "## 2. B") ++ String nl "## 3. C") = 0.
Proof.
  apply no_impact_marker_no_metadata_sections. vm_compute. reflexivity.
Defined.

(** ** The catalog total *)

Lemma filter_length_full (A : Type) (p : A -> bool) (l : list A) :
  List.length (filter p l) = List.length l -> forall x, In x l -> p x = true.
Proof.
  induction l as [|y l IH]; [intros _ x []|]. simpl. intros H x Hx.
  pose proof (filter_length_mono A p (fun _ => true) l (fun _ _ => eq_refl))
    as Hle.
  rewrite filter_true in Hle.
  destruct (p y) eqn:Hy; simpl in H.
  - destruct Hx as [<-|Hx]; [exact Hy|]. apply IH; [lia|exact Hx].
  - lia.
Qed.

(** The catalog check's found total never exceeds 23, and it is 23 exactly
    when every title of the catalog occurs as [## ] followed by the exact
    title. *)
Theorem found_total_bounded (content : string) :
  total_rules (rule_check content) <= 23
  /\ (total_rules (rule_check content) = 23 <->
      forall t, In t all_titles -> contains ("## " ++ t) content = true).
Proof.
  unfold rule_check. rewrite fold_check_category. cbn [total_rules].
  fold all_titles.
  assert (Hlen : List.length all_titles = 23) by reflexivity.
  assert (Hle : titles_found content all_titles <= 23).
  { rewrite <- Hlen. unfold titles_found.
    pose proof (filter_length_mono string
                  (fun t => contains ("## " ++ t) content) (fun _ => true)
                  all_titles (fun _ _ => eq_refl)) as H.
    rewrite filter_true in H. exact H. }
  split; [exact Hle|]. split.
  - intros H. apply (filter_length_full string). rewrite Hlen. exact H.
  - intros H. rewrite titles_found_all by exact H. reflexivity.
Qed.

(** ** The ending check *)

Lemma list_ascii_of_string_app (a b : string) :
  list_ascii_of_string (a ++ b) = app (list_ascii_of_string a) (list_ascii_of_string b).
Proof. induction a as [|c a IH]; [reflexivity|]. simpl. rewrite IH. reflexivity. Qed.

Lemma string_length_app (a b : string) :
  String.length (a ++ b) = String.length a + String.length b.
Proof. induction a as [|c a IH]; [reflexivity|]. simpl. rewrite IH. reflexivity. Qed.

Lemma substring_app_r (p q : string) (n m : nat) :
  substring (String.length p + n) m (p ++ q) = substring n m q.
Proof. induction p as [|c p IH]; [reflexivity|]. exact IH. Qed.

Lemma forallb_rev' (f : ascii -> bool) (l : list ascii) :
  forallb f (rev l) = forallb f l.
Proof.
  induction l as [|c l IH]; [reflexivity|]. simpl.
  rewrite forallb_app, IH. simpl. rewrite andb_true_r, andb_comm. reflexivity.
Qed.

Lemma existsb_rev' (f : ascii -> bool) (l : list ascii) :
  existsb f (rev l) = existsb f l.
Proof.
  induction l as [|c l IH]; [reflexivity|]. simpl.
  rewrite existsb_app, IH. simpl. rewrite orb_false_r, orb_comm. reflexivity.
Qed.

(** [endswith] on [rstrip] looks at the first non-space character from the
    end. *)
Lemma endswith_rstrip (c : ascii) (s : string) :
  endswith_char c (rstrip s) =
  match drop_spaces (rev (list_ascii_of_string s)) with
  | d :: _ => Ascii.eqb c d
  | [] => false
  end.
Proof.
  unfold endswith_char, rstrip.
  rewrite list_ascii_of_string_of_list_ascii, rev_involutive. reflexivity.
Qed.

Lemma drop_spaces_app (l1 l2 : list ascii) :
  existsb (fun c => negb (is_space c)) l1 = true ->
  drop_spaces (app l1 l2) = app (drop_spaces l1) l2.
Proof.
  induction l1 as [|c l1 IH]; [discriminate|]. simpl.
  destruct (is_space c); simpl; [apply IH|reflexivity].
Qed.

Lemma drop_spaces_all_spaces (l1 l2 : list ascii) :
  forallb is_space l1 = true -> drop_spaces (app l1 l2) = drop_spaces l2.
Proof.
  induction l1 as [|c l1 IH]; [reflexivity|]. simpl.
  intros H. apply andb_true_iff in H as [Hc H]. rewrite Hc. apply IH, H.
Qed.

(** Every line of the census output that comes from the ending check. *)
Lemma ending_line_iff (content : string) :
  In ending_line (census_output content) <->
  endswith_char "]" (rstrip content)
  || contains "Reference:" (last_chars 200 content) = true.
Proof.
  split.
  - intros H.
    destruct (endswith_char "]" (rstrip content)
              || contains "Reference:" (last_chars 200 content)) eqn:E;
      [reflexivity|].
    unfold census_output, print_if in H. rewrite E in H.
    census_line_cases H; discriminate H.
  - intros E. unfold census_output, print_if. rewrite E.
    do 4 (apply in_or_app; right). apply in_or_app. right.
    apply in_or_app. left. left. reflexivity.
Qed.

(** A document whose last character other than trailing whitespace is [\]]
    always gets the census's ending line. *)
Theorem closing_bracket_ends_properly (p t : string) :
  forallb is_space (list_ascii_of_string t) = true ->
  In ending_line (census_output (p ++ "]" ++ t)).
Proof.
  intros Ht. apply ending_line_iff. apply orb_true_iff. left.
  rewrite endswith_rstrip, !list_ascii_of_string_app, !rev_app_distr.
  rewrite <- app_assoc, drop_spaces_all_spaces by (rewrite forallb_rev'; exact Ht).
  reflexivity.
Qed.

(** [closing_bracket_ends_properly], at a document ending in [\]] and a
    newline. *)
Lemma closing_bracket_ends_properly_witness :
  In ending_line (census_output ("See [the guide" ++ "]" ++ String nl "")).
Proof. apply closing_bracket_ends_properly. reflexivity. Defined.

(** The ending check reads only the end of the document: when the last 200
    or more characters [q] hold a character other than whitespace, putting
    any text [p] in front of them leaves the ending line's presence
    unchanged; a [Reference:] earlier in the document does not count. *)
Theorem ending_check_reads_only_the_end (p q : string) :
  200 <= String.length q ->
  existsb (fun c => negb (is_space c)) (list_ascii_of_string q) = true ->
  (In ending_line (census_output (p ++ q)) <->
   In ending_line (census_output q)).
Proof.
  intros Hlen Hq. rewrite !ending_line_iff.
  assert (Hend : endswith_char "]" (rstrip (p ++ q))
                 = endswith_char "]" (rstrip q)).
  { rewrite !endswith_rstrip, list_ascii_of_string_app, rev_app_distr.
    rewrite drop_spaces_app by (rewrite existsb_rev'; exact Hq).
    destruct (drop_spaces (rev (list_ascii_of_string q))) eqn:E;
      [|reflexivity].
    exfalso. rewrite <- existsb_rev' in Hq.
    revert E Hq. generalize (rev (list_ascii_of_string q)).
    induction l as [|c l IH]; [discriminate|]. simpl.
    destruct (is_space c); simpl; [apply IH|discriminate]. }
  assert (Hlast : last_chars 200 (p ++ q) = last_chars 200 q).
  { unfold last_chars. rewrite string_length_app.
    replace (String.length p + String.length q - 200)
      with (String.length p + (String.length q - 200)) by lia.
    apply substring_app_r. }
  rewrite Hend, Hlast. reflexivity.
Qed.

(** [ending_check_reads_only_the_end], with [Reference:] placed before the
    last 200 characters. *)
Lemma ending_check_reads_only_the_end_witness :
  In ending_line (census_output ("Reference: x" ++ repeat_char "a" 200))
  <-> In ending_line (census_output (repeat_char "a" 200)).
Proof.
  apply ending_check_reads_only_the_end; vm_compute; [lia|reflexivity].
Defined.

(** ** One line per title *)

Lemma append_cancel_l (p a b : string) : p ++ a = p ++ b -> a = b.
Proof.
  induction p as [|c p IH]; [tauto|]. simpl. intros H. injection H. exact IH.
Qed.

Lemma in_all_titles (t : string) :
  In t all_titles -> exists entry, In entry sections /\ In t (snd entry).
Proof. unfold all_titles. rewrite in_flat_map. tauto. Qed.

Lemma membership_line_cases (content l : string) :
  In l (membership_output content) ->
  l = "Verifying all rules are present in AGENTS.md:"
  \/ l = repeat_char "=" 60
  \/ (exists entry, In entry sections
        /\ (l = category_line (fst entry) (snd entry)
            \/ exists t, In t (snd entry) /\ l = rule_line content t))
  \/ l = String nl (repeat_char "=" 60)
  \/ l = "Total rules found: " ++ string_of_nat (titles_found content all_titles)
         ++ "/23".
Proof.
  rewrite membership_output_eq. repeat rewrite in_app_iff. intros H.
  destruct H as [[H|H]|H].
  - simpl in H. intuition.
  - apply in_flat_map in H as [entry [He H]]. right. right. left.
    exists entry. split; [exact He|]. destruct H as [<-|H]; [left; reflexivity|].
    right. apply in_map_iff in H as [t [<- Ht]]. exists t. split; auto.
  - simpl in H. intuition.
Qed.

(** For each title of the catalog, the catalog check prints its found line
    exactly when [## ] followed by the title occurs in the document, and
    its [✗ MISSING] line exactly when it does not. *)
Theorem title_reported_found_or_missing (content t : string) :
  In t all_titles ->
  (In (found_line t) (membership_output content) <->
   contains ("## " ++ t) content = true)
  /\ (In (missing_line t) (membership_output content) <->
      contains ("## " ++ t) content = false).
Proof.
  intros Ht.
  assert (Hin : In (rule_line content t) (membership_output content)).
  { rewrite membership_output_eq. apply in_or_app. left. apply in_or_app.
    right. apply in_flat_map. destruct (in_all_titles t Ht) as [e [He Hte]].
    exists e. split; [exact He|]. right. apply in_map. exact Hte. }
  unfold rule_line in Hin. split; split.
  - intros H. apply membership_line_cases in H.
    destruct H as [H|[H|[[e [_ [H|[t' [_ H]]]]]|[H|H]]]];
      unfold found_line in H; simpl in H; try discriminate H.
    unfold rule_line, found_line, missing_line in H.
    destruct (contains ("## " ++ t') content) eqn:E; [|discriminate H].
    assert (t' = t) by (apply (append_cancel_l "  ✓ "); symmetry; exact H).
    subst t'. exact E.
  - intros E. rewrite E in Hin. exact Hin.
  - intros H. apply membership_line_cases in H.
    destruct H as [H|[H|[[e [_ [H|[t' [_ H]]]]]|[H|H]]]];
      unfold missing_line in H; simpl in H; try discriminate H.
    unfold rule_line, found_line, missing_line in H.
    destruct (contains ("## " ++ t') content) eqn:E; [discriminate H|].
    assert (t' = t)
      by (apply (append_cancel_l "  ✗ MISSING: "); symmetry; exact H).
    subst t'. exact E.
  - intros E. rewrite E in Hin. exact Hin.
Qed.

(** [title_reported_found_or_missing], at [punctuated_doc] and a title. *)
Lemma title_reported_found_or_missing_witness :
  (In (found_line "Use Embroider Static Mode") (membership_output punctuated_doc)
   <-> contains "## Use Embroider Static Mode" punctuated_doc = true)
  /\ (In (missing_line "Use Embroider Static Mode")
         (membership_output punctuated_doc)
      <-> contains "## Use Embroider Static Mode" punctuated_doc = false).
Proof.
  apply title_reported_found_or_missing. vm_compute. tauto.
Defined.

(** ** The empty document *)

(** On an empty document the census prints every count as 0 and none of
    its presence lines, and the catalog check reports all 23 titles
    missing with a total of 0. *)
Theorem empty_document_reports :
  census_output "" =
  ["✓ Number of main sections: 0"; "✓ Total headers (##): 0";
   "✓ Sections with metadata: 0/7"; "✓ Horizontal rule separators: 0";
   "✓ Total lines: 0"; banner_line; summary_line; "   - 7 main sections";
   "   - 23 rules total"; "   - 0 lines";
   "   - All rules properly formatted and organized"]
  /\ total_rules (rule_check "") = 0
  /\ Forall (fun t => In (missing_line t) (membership_output "")) all_titles.
Proof.
  split; [vm_compute; reflexivity|]. split; [vm_compute; reflexivity|].
  apply Forall_forall. intros t Ht.
  assert (H : forallb (fun t => existsb (String.eqb (missing_line t))
                                        (membership_output "")) all_titles
              = true) by (vm_compute; reflexivity).
  rewrite forallb_forall in H. apply H in Ht.
  apply existsb_exists in Ht as [l [Hl E]]. apply String.eqb_eq in E.
  rewrite E. exact Hl.
Qed.

(** ** Adding text around a document *)

Lemma prefix_extend (w a b : string) :
  prefix w a = true -> prefix w (a ++ b) = true.
Proof.
  revert a. induction w as [|c w IH]; intros a H; [destruct (a ++ b); reflexivity|].
  destruct a as [|d a]; [discriminate H|]. simpl in *.
  destruct (ascii_dec c d); [apply IH, H|discriminate H].
Qed.

Lemma contains_extend_r (w a b : string) :
  contains w a = true -> contains w (a ++ b) = true.
Proof.
  induction a as [|c a IH]; cbn [contains append]; intros H.
  - apply orb_true_iff in H as [H|H]; [|discriminate H].
    destruct w; [destruct b; reflexivity|discriminate H].
  - apply orb_true_iff in H as [H|H].
    + apply orb_true_iff. left. exact (prefix_extend w (String c a) b H).
    + rewrite (IH H). apply orb_true_r.
Qed.

Lemma contains_extend_l (w a b : string) :
  contains w b = true -> contains w (a ++ b) = true.
Proof.
  induction a as [|c a IH]; intros H; [exact H|].
  cbn [contains append]. rewrite (IH H). apply orb_true_r.
Qed.

(** Adding text before or after a document never turns a title the
    catalog check reports found into a missing one, and never lowers its
    found total. *)
Theorem found_titles_survive_added_text (d content e : string) :
  (forall t, In (found_line t) (membership_output content) ->
             rule_line (d ++ content ++ e) t = found_line t)
  /\ total_rules (rule_check content)
     <= total_rules (rule_check (d ++ content ++ e)).
Proof.
  assert (Hc : forall w, contains w content = true ->
                         contains w (d ++ content ++ e) = true).
  { intros w H. apply contains_extend_l, contains_extend_r, H. }
  split.
  - intros t H. apply membership_line_cases in H.
    destruct H as [H|[H|[[en [_ [H|[t' [_ H]]]]]|[H|H]]]];
      unfold found_line in H; simpl in H; try discriminate H.
    unfold rule_line, found_line, missing_line in H.
    destruct (contains ("## " ++ t') content) eqn:E; [|discriminate H].
    assert (t' = t) by (apply (append_cancel_l "  ✓ "); symmetry; exact H).
    subst t'.
    unfold rule_line. rewrite (Hc _ E). reflexivity.
  - unfold rule_check. rewrite !fold_check_category. cbn [total_rules].
    apply filter_length_mono. intros t. apply Hc.
Qed.

(** [found_titles_survive_added_text], at [punctuated_doc] with text on
    both sides and one of its found titles. *)
Lemma found_titles_survive_added_text_witness :
  rule_line ("Intro" ++ punctuated_doc ++ "Outro") "Use Embroider Static Mode"
  = found_line "Use Embroider Static Mode".
Proof.
  apply (proj1 (found_titles_survive_added_text "Intro" punctuated_doc "Outro")).
  assert (H : existsb (String.eqb (found_line "Use Embroider Static Mode"))
                      (membership_output punctuated_doc) = true)
    by (vm_compute; reflexivity).
  apply existsb_exists in H as [l [Hl E]]. apply String.eqb_eq in E.
  rewrite E. exact Hl.
Defined.
